(** * ADK agent gateway: the event-parsing rule and the two-step call protocol

    A shallow embedding of [main.py]: the values that [response.json()]
    yields, the loop of [run_agent_session] that selects the final answer,
    the two outbound calls, the endpoint [run_agent] with its three
    failure sites, and the two utility endpoints. *)

From Stdlib Require Import ZArith QArith String Ascii List Bool Lia.
From Stdlib Require Import SpecFloat DecimalString.
From Stdlib Require DecimalPos DecimalZ.
From stdpp Require Import gmap strings list fin_maps.
Import ListNotations.
Local Open Scope string_scope.
Local Open Scope Z_scope.

(** ** Values produced by [response.json()] *)

Local Set Warnings "-register-all".

(** What Python's [json] module builds: [None], [bool], [int], [float],
    [str], [list] and [dict] with [str] keys. *)
Inductive json : Type :=
  | JNull
  | JBool (b : bool)
  | JInt (n : Z)
  | JFloat (f : spec_float)
  | JString (s : string)
  | JArray (l : list json)
  | JObject (m : gmap string json).

(** Exceptions that can travel through the [try] block of [run_agent]. *)
Inductive exn : Type :=
  | AttributeError (msg : string)
  | TypeError (msg : string)
  | KeyError (msg : string)
  | IndexError (msg : string)
  | JSONDecodeError (msg : string)
  | ValidationError (msg : string)
  | HTTPStatusError (status_code : Z) (text : string)
  | TimeoutException (msg : string)
  | TransportError (msg : string).

Inductive result (A : Type) : Type :=
  | Ok (a : A)
  | Raise (e : exn).
Arguments Ok {A} a.
Arguments Raise {A} e.

(** [type(v).__name__], as it appears in the interpreter's messages. *)
Definition type_name (v : json) : string :=
  match v with
  | JNull => "NoneType"
  | JBool _ => "bool"
  | JInt _ => "int"
  | JFloat _ => "float"
  | JString _ => "str"
  | JArray _ => "list"
  | JObject _ => "dict"
  end.

(** Python truth value of a parsed value. *)
Definition truthy (v : json) : bool :=
  match v with
  | JNull => false
  | JBool b => b
  | JInt n => negb (n =? 0)
  | JFloat (S754_zero _) => false
  | JFloat _ => true
  | JString s => negb (String.eqb s "")
  | JArray l => match l with [] => false | _ :: _ => true end
  | JObject m => negb (bool_decide (m = ∅))
  end.

(** [isinstance(v, dict)] *)
Definition is_dict (v : json) : bool :=
  match v with JObject _ => true | _ => false end.

(** [v == "..."] against a [str] literal. *)
Definition eq_str (v : json) (s : string) : bool :=
  match v with JString t => String.eqb t s | _ => false end.

(** [event.get(key)]: only a [dict] has the method. *)
Definition py_get (v : json) (key : string) : result json :=
  match v with
  | JObject m => Ok (default JNull (m !! key))
  | _ => Raise (AttributeError
           ("'" ++ type_name v ++ "' object has no attribute 'get'"))
  end.

(** [key in d] for a [dict] [d]. *)
Definition has_key (m : gmap string json) (key : string) : bool :=
  bool_decide (is_Some (m !! key)).

(** [parts[0]] for a truthy [parts]. *)
Definition py_first (v : json) : result json :=
  match v with
  | JArray (x :: _) => Ok x
  | JArray [] => Raise (IndexError "list index out of range")
  | JString (String c _) => Ok (JString (String c EmptyString))
  | JString EmptyString => Raise (IndexError "string index out of range")
  | JObject _ => Raise (KeyError "0")
  | _ => Raise (TypeError
           ("'" ++ type_name v ++ "' object is not subscriptable"))
  end.

(** ** The response extractor (lines 104-121 of [run_agent_session]) *)

Definition sentinel : string := "Agent did not provide a final text response.".

(** One iteration of the [for event in events] loop: the new value of
    [final_response], or the exception that leaves the loop. *)
Definition scan_event (final : json) (event : json) : result json :=
  match py_get event "content" with
  | Raise e => Raise e
  | Ok content =>
      match content with
      | JObject c =>   (* isinstance(content, dict) *)
          if truthy content && eq_str (default JNull (c !! "role")) "model"
             && has_key c "parts"
          then
            let parts := default (JArray []) (c !! "parts") in
            if truthy parts then
              match py_first parts with
              | Raise e => Raise e
              | Ok (JObject p0) =>
                  match p0 !! "text" with
                  | Some t => Ok t
                  | None => Ok final
                  end
              | Ok _ => Ok final
              end
            else Ok final
          else Ok final
      | _ => Ok final
      end
  end.

Fixpoint scan (final : json) (events : list json) : result json :=
  match events with
  | [] => Ok final
  | event :: rest =>
      match scan_event final event with
      | Ok final' => scan final' rest
      | Raise e => Raise e
      end
  end.

Definition extractFinal (events : list json) : result json :=
  scan (JString sentinel) events.

(** ** Eligibility, in the words of the specification *)

(** The text of an eligible event: its content is an object whose role is
    the model marker, whose parts are a sequence, and whose first part is
    an object carrying a text field. [None] for every other event. *)
Definition eligible_text (event : json) : option json :=
  match event with
  | JObject e =>
      match e !! "content" with
      | Some (JObject c) =>
          match c !! "role", c !! "parts" with
          | Some (JString role), Some (JArray (JObject p0 :: _)) =>
              if String.eqb role "model" then p0 !! "text" else None
          | _, _ => None
          end
      | _ => None
      end
  | _ => None
  end.

Definition ineligible (event : json) : Prop := eligible_text event = None.

(** The data model of a turn event: a record (an object); when its
    content is an object that has a parts field, that field is a
    sequence. Role, text and every other field are unconstrained. *)
Definition TurnEvent (event : json) : Prop :=
  match event with
  | JObject e =>
      match e !! "content" with
      | Some (JObject c) =>
          match c !! "parts" with
          | Some (JArray _) | None => True
          | Some _ => False
          end
      | _ => True
      end
  | _ => False
  end.

(** Builders for the concrete events used in the examples. *)
Definition content_of (role : string) (parts : list json) : json :=
  JObject (<[ "role" := JString role ]> {[ "parts" := JArray parts ]}).
Definition event_of (content : json) : json :=
  JObject {[ "content" := content ]}.
Definition text_part (t : string) : json :=
  JObject {[ "text" := JString t ]}.

(** ** Request and response models *)

Module AgentRequest.
Record t : Type := mk {
  agent_name : string;
  message : string;
  user_id : string;
  session_id : option string
}.
End AgentRequest.

Module AgentResponse.
Record t : Type := mk {
  response : string;
  session_id : string;
  agent_name : string;
  status : string
}.
End AgentResponse.

(** FastAPI's [HTTPException(status_code, detail)]. *)
Record HTTPException : Type := {
  status_code : Z;
  detail : string
}.

(** What the caller of the endpoint gets. *)
Inductive outcome : Type :=
  | Return (r : AgentResponse.t)
  | Fail (e : HTTPException).

(** ** Agent registry *)

Definition AGENT_REGISTRY : gmap string string :=
  list_to_map
    [ ("greeting_agent", "http://localhost:8000");
      ("jarvis_agent", "http://localhost:8000");
      ("calc_agent", "http://localhost:8000") ].

(** ** The outside world: clock and target service *)

(** One [client.post(url, headers=..., json=...)] under a client built with
    [timeout=...]. *)
Record post_call : Type := {
  url : string;
  headers : list (string * string);
  body : json;
  timeout : Q
}.

(** An [httpx.Response]: [.status_code], [.text] and what [.json()] gives
    (the decoder's message when the body is not JSON). *)
Module Response.
Record t : Type := mk {
  status_code : Z;
  text : string;
  json : string + json
}.
End Response.

(** What a call meets: an answer, the expiry of the client's timeout, or
    another transport failure. *)
Inductive reply : Type :=
  | Responded (r : Response.t)
  | TimedOut (msg : string)
  | Failed (msg : string).

(** The environment of one request: the reading of [time.time()], the
    target service (which may depend on the calls made before), and the
    text of pydantic's validation error for a rejected value. *)
Record env : Type := {
  clock : Q;
  upstream : list post_call → post_call → reply;
  validation_message : json → string
}.

(** The effects of one request: the outbound calls issued, in order, and
    the lines given to [logging.error]. *)
Record state : Type := {
  calls : list post_call;
  log : list string
}.

Definition M (A : Type) : Type := state → result A * state.

Definition ret {A} (a : A) : M A := λ st, (Ok a, st).

Definition raise {A} (e : exn) : M A := λ st, (Raise e, st).

Definition bind {A B} (m : M A) (k : A → M B) : M B :=
  λ st, match m st with
        | (Ok a, st') => k a st'
        | (Raise e, st') => (Raise e, st')
        end.

Definition lift {A} (r : result A) : M A := λ st, (r, st).

Notation "'let*' x := m 'in' k" := (bind m (λ x, k))
  (at level 10, x name, m at level 100, k at level 200).

Definition post (E : env) (c : post_call) : M Response.t :=
  λ st,
    let st' := {| calls := calls st ++ [c]; log := log st |} in
    match upstream E (calls st) c with
    | Responded r => (Ok r, st')
    | TimedOut msg => (Raise (TimeoutException msg), st')
    | Failed msg => (Raise (TransportError msg), st')
    end.

(** [httpx]: a status is a success when it is 2xx; [raise_for_status]
    raises [HTTPStatusError] for every other status. *)
Definition is_success (code : Z) : bool := (200 <=? code) && (code <=? 299).

Definition raise_for_status (r : Response.t) : M unit :=
  if is_success (Response.status_code r) then ret tt
  else raise (HTTPStatusError (Response.status_code r) (Response.text r)).

Definition response_json (r : Response.t) : M json :=
  match Response.json r with
  | inr v => ret v
  | inl msg => raise (JSONDecodeError msg)
  end.

(** [int(t)] of a clock reading: truncation to whole seconds. *)
Definition py_int (t : Q) : Z := Z.quot (Qnum t) (Z.pos (Qden t)).

(** [str(n)] of an [int]. *)
Definition str_int (n : Z) : string := NilZero.string_of_int (Z.to_int n).

(** [for x in v]: the items the loop visits. The keys of a [dict] are
    [str]; their order plays no part below. *)
Definition py_iter (v : json) : result (list json) :=
  match v with
  | JArray l => Ok l
  | JString s =>
      Ok (map (λ c, JString (String c EmptyString)) (list_ascii_of_string s))
  | JObject m => Ok (map (λ kv, JString kv.1) (map_to_list m))
  | _ => Raise (TypeError ("'" ++ type_name v ++ "' object is not iterable"))
  end.

(** ** Session initiator *)

Definition json_headers : list (string * string) :=
  [("Content-Type", "application/json")].

(** [f"session-{int(time.time())}"] *)
Definition new_session_id (E : env) : string :=
  "session-" ++ str_int (py_int (clock E)).

Definition create_session_call
    (agent_url user_id app_name session_id : string) : post_call :=
  {| url := agent_url ++ "/apps/" ++ app_name ++ "/users/" ++ user_id
              ++ "/sessions/" ++ session_id;
     headers := json_headers;
     body := JObject ∅;
     timeout := (10 # 1)%Q |}.

Definition create_session (E : env) (agent_url user_id app_name : string)
  : M string :=
  let session_id := new_session_id E in
  let* response := post E (create_session_call agent_url user_id app_name session_id) in
  let* _ := raise_for_status response in
  ret session_id.

(** ** Turn executor *)

Definition run_call
    (agent_url message user_id app_name session_id : string) : post_call :=
  {| url := agent_url ++ "/run";
     headers := json_headers;
     body := JObject (list_to_map
       [ ("app_name", JString app_name);
         ("user_id", JString user_id);
         ("session_id", JString session_id);
         ("new_message", JObject (list_to_map
            [ ("role", JString "user");
              ("parts", JArray [JObject {[ "text" := JString message ]}]) ])) ]);
     timeout := (60 # 1)%Q |}.

Definition run_agent_session
    (E : env) (agent_url message user_id app_name session_id : string)
  : M json :=
  let* response := post E (run_call agent_url message user_id app_name session_id) in
  let* _ := raise_for_status response in
  let* body_value := response_json response in
  let* events := lift (py_iter body_value) in
  lift (extractFinal events).

(** ** Gateway endpoint *)

(** [AgentResponse(response=..., ...)]: pydantic (version 2) accepts a
    [str] for the [str] field and rejects every other parsed value with a
    [ValidationError]. *)
Definition new_AgentResponse (E : env)
    (response : json) (session_id agent_name status : string)
  : result AgentResponse.t :=
  match response with
  | JString s => Ok (AgentResponse.mk s session_id agent_name status)
  | _ => Raise (ValidationError (validation_message E response))
  end.

(** The body of the [try] block. *)
Definition run_agent_try (E : env) (request : AgentRequest.t)
    (agent_url : string) : M AgentResponse.t :=
  let* session_id := create_session E agent_url
                 (AgentRequest.user_id request) (AgentRequest.agent_name request) in
  let* response_text := run_agent_session E agent_url
                    (AgentRequest.message request) (AgentRequest.user_id request)
                    (AgentRequest.agent_name request) session_id in
  lift (new_AgentResponse E response_text session_id
          (AgentRequest.agent_name request) "success").

Definition log_error (line : string) (st : state) : state :=
  {| calls := calls st; log := log st ++ [line] |}.

(** The two [except] clauses. *)
Definition handle (agent_name : string) (e : exn) (st : state)
  : outcome * state :=
  match e with
  | HTTPStatusError code text =>
      (Fail {| status_code := code;
               detail := "Error from ADK server: " ++ text |},
       log_error ("HTTP Error running agent " ++ agent_name ++ ": "
                  ++ str_int code ++ " - " ++ text) st)
  | AttributeError msg | TypeError msg | KeyError msg | IndexError msg
  | JSONDecodeError msg | ValidationError msg
  | TimeoutException msg | TransportError msg =>
      (Fail {| status_code := 500; detail := msg |},
       log_error ("Error running agent " ++ agent_name ++ ": " ++ msg) st)
  end.

Definition run_agent (E : env) (request : AgentRequest.t)
  : state → outcome * state :=
  λ st,
    let agent_name := AgentRequest.agent_name request in
    match AGENT_REGISTRY !! agent_name with
    | None =>
        (Fail {| status_code := 404;
                 detail := "Agent '" ++ agent_name ++ "' not found" |}, st)
    | Some agent_url =>
        match run_agent_try E request agent_url st with
        | (Ok r, st') => (Return r, st')
        | (Raise e, st') => handle agent_name e st'
        end
    end.

Definition initial : state := {| calls := []; log := [] |}.

(** The request with its optional session identifier replaced. *)
Definition with_session_id (sid : option string) (request : AgentRequest.t)
  : AgentRequest.t :=
  AgentRequest.mk (AgentRequest.agent_name request)
    (AgentRequest.message request) (AgentRequest.user_id request) sid.

(** The state after one more outbound call. *)
Definition issued (c : post_call) (st : state) : state :=
  {| calls := calls st ++ [c]; log := log st |}.

(** ** Concrete scenarios *)

(** A target service that answers the n-th call of a request with the
    n-th scripted reply. *)
Definition scripted (replies : list reply) : list post_call → post_call → reply :=
  λ past _, nth (length past) replies (Failed "no reply scripted").

Definition answer (code : Z) (text : string) (v : json) : reply :=
  Responded (Response.mk code text (inr v)).

Definition world (t : Q) (replies : list reply) : env :=
  {| clock := t;
     upstream := scripted replies;
     validation_message := λ _, "Input should be a valid string" |}.

Definition turn_AB : list json :=
  [ event_of (content_of "user" [text_part "hi"]);
    event_of (content_of "model" [text_part "A"]);
    event_of (content_of "model" [text_part "B"]) ].

Definition calc_request : AgentRequest.t :=
  AgentRequest.mk "calc_agent" "hi" "u1" None.

Definition world_ok : env :=
  world (17000000005 # 10)%Q [answer 200 "{}" JNull; answer 200 "[...]" (JArray turn_AB)].

Definition world_create_500 : env :=
  world (17000000005 # 10)%Q [answer 500 "boom" JNull; answer 200 "[...]" (JArray turn_AB)].

Definition world_create_timeout : env :=
  world (17000000005 # 10)%Q [TimedOut ""].

Definition world_create_refused : env :=
  world (17000000005 # 10)%Q [Failed ""].

Definition world_run_timeout : env :=
  world (17000000005 # 10)%Q [answer 200 "{}" JNull; TimedOut ""].

(** The [new_message] field of the payload of a call. *)
Definition new_message_of (c : post_call) : option json :=
  match body c with
  | JObject m => m !! "new_message"
  | _ => None
  end.

(** The two calls of a request, for the identifier generated at [E]. *)
Definition create_of (E : env) (request : AgentRequest.t) (agent_url : string)
  : post_call :=
  create_session_call agent_url (AgentRequest.user_id request)
    (AgentRequest.agent_name request) (new_session_id E).

Definition run_of (E : env) (request : AgentRequest.t) (agent_url : string)
  : post_call :=
  run_call agent_url (AgentRequest.message request)
    (AgentRequest.user_id request) (AgentRequest.agent_name request)
    (new_session_id E).

(** The agent is registered at [agent_url], the target accepted the
    create-session call and answered the run call with [run_response]. *)
Definition run_answered (E : env) (request : AgentRequest.t) (st : state)
    (agent_url : string) (run_response : Response.t) : Prop :=
  AGENT_REGISTRY !! AgentRequest.agent_name request = Some agent_url
  ∧ (∃ r, upstream E (calls st) (create_of E request agent_url) = Responded r
          ∧ is_success (Response.status_code r) = true)
  ∧ upstream E (calls st ++ [create_of E request agent_url])
      (run_of E request agent_url) = Responded run_response.

(** Parsed values that a [for] loop cannot iterate. *)
Definition not_iterable (v : json) : bool :=
  match v with
  | JNull | JBool _ | JInt _ | JFloat _ => true
  | _ => false
  end.

(** A content object turned into one from the model: what an agent that
    repeats its input sends back. *)
Definition as_model (content : json) : json :=
  match content with
  | JObject c => JObject (<[ "role" := JString "model" ]> c)
  | v => v
  end.

(** ** Events on which the loop raises *)

(** [parts] values that are truthy and cannot be subscripted with [0]:
    [True], a non-zero number, a non-empty [dict] (its keys are [str]). *)
Definition unsubscriptable (parts : json) : bool :=
  truthy parts &&
  match parts with
  | JArray _ | JString _ => false
  | _ => true
  end.

(** The events at which an iteration raises: those without a [get]
    method, and those whose content is a model content with such a
    [parts] value. *)
Definition faults (event : json) : bool :=
  match event with
  | JObject e =>
      match e !! "content" with
      | Some (JObject c) =>
          match c !! "role", c !! "parts" with
          | Some (JString role), Some parts =>
              String.eqb role "model" && unsubscriptable parts
          | _, _ => false
          end
      | _ => false
      end
  | _ => true
  end.

(** ** Utility endpoints *)

(** [list(AGENT_REGISTRY.keys())]: the keys in the order of the literal. *)
Definition AGENT_REGISTRY_keys : list string :=
  ["greeting_agent"; "jarvis_agent"; "calc_agent"].

Definition health_check : json :=
  JObject (list_to_map
    [ ("status", JString "healthy");
      ("agents", JArray (map JString AGENT_REGISTRY_keys)) ]).

Definition list_agents : json :=
  JObject {[ "agents" := JArray (map JString AGENT_REGISTRY_keys) ]}.

(** The names a client reads out of the answer of a utility endpoint. *)
Definition agents_listed (answer : json) : list string :=
  match answer with
  | JObject m =>
      match m !! "agents" with
      | Some (JArray names) =>
          omap (λ v, match v with JString s => Some s | _ => None end) names
      | _ => []
      end
  | _ => []
  end.

(** ** Facts about the extractor *)

Lemma truthy_object_nonempty (c : gmap string json) k v :
  c !! k = Some v → truthy (JObject c) = true.
Proof.
  intros Hk. simpl. apply negb_true_iff, bool_decide_eq_false.
  intros ->. by rewrite lookup_empty in Hk.
Qed.

Lemma has_key_Some (c : gmap string json) k v :
  c !! k = Some v → has_key c k = true.
Proof. intros Hk. apply bool_decide_eq_true. eauto. Qed.

Lemma has_key_None (c : gmap string json) k :
  c !! k = None → has_key c k = false.
Proof.
  intros Hk. apply bool_decide_eq_false. rewrite Hk. by intros [? ?].
Qed.

(** On a turn event one iteration never raises: it overwrites [final]
    exactly when the event is eligible. *)
Lemma scan_event_TurnEvent final event :
  TurnEvent event →
  scan_event final event = Ok (default final (eligible_text event)).
Proof.
  unfold TurnEvent, scan_event, eligible_text, py_get.
  destruct event as [| | | | |l|e]; try done.
  destruct (e !! "content") as [content|]; simpl; [|done].
  destruct content as [| | | | |l|c]; try done.
  destruct (c !! "parts") as [parts|] eqn:Hparts.
  - intros Hshape. destruct parts as [| | | | |ps|]; try done.
    rewrite (has_key_Some _ _ _ Hparts), andb_true_r.
    rewrite (truthy_object_nonempty _ _ _ Hparts). simpl.
    destruct (c !! "role") as [role|]; simpl; [|done].
    destruct role as [| | | |r| |]; simpl; try done.
    destruct ps as [|[| | | | | |p0] ps]; simpl;
      destruct (String.eqb r "model"); try done.
    by destruct (p0 !! "text").
  - intros _. rewrite (has_key_None _ _ Hparts), andb_false_r.
    by destruct (c !! "role") as [[]|].
Qed.

Lemma scan_app final xs ys :
  scan final (xs ++ ys) =
  match scan final xs with
  | Ok final' => scan final' ys
  | Raise e => Raise e
  end.
Proof.
  revert final. induction xs as [|x xs IH]; intros final; simpl; [done|].
  destruct (scan_event final x); [apply IH | done].
Qed.

Lemma scan_ineligible final events :
  Forall TurnEvent events → Forall ineligible events →
  scan final events = Ok final.
Proof.
  intros Hshape. revert final.
  induction Hshape as [|x xs Hx _ IH]; intros final Hin; simpl; [done|].
  inversion Hin as [|? ? Hx0 Hxs]; subst.
  rewrite (scan_event_TurnEvent _ _ Hx). unfold ineligible in Hx0.
  rewrite Hx0. simpl. by apply IH.
Qed.

(** The loop computes the last eligible text, or keeps its start value. *)
Lemma scan_last_eligible final events :
  Forall TurnEvent events →
  scan final events = Ok (default final (last (omap eligible_text events))).
Proof.
  intros Hshape. revert final.
  induction Hshape as [|x xs Hx _ IH]; intros final; simpl; [done|].
  rewrite (scan_event_TurnEvent _ _ Hx), IH.
  destruct (eligible_text x) as [t|]; simpl; [|done].
  rewrite last_cons.
  change (list_omap json json eligible_text xs) with (omap eligible_text xs).
  by destruct (last (omap eligible_text xs)).
Qed.

(** From an eligible event on, with only ineligible events behind it,
    the loop ends on that event's text whatever it held before. *)
Lemma scan_from_eligible final (event t : json) (post : list json) :
  Forall TurnEvent (event :: post) →
  eligible_text event = Some t →
  Forall ineligible post →
  scan final (event :: post) = Ok t.
Proof.
  intros Hshape Ht Hpost.
  apply Forall_cons in Hshape as [Hevent Hpost'].
  simpl. rewrite (scan_event_TurnEvent _ _ Hevent), Ht. simpl.
  by apply scan_ineligible.
Qed.

(** Outside the data model the loop can fault: an event that is not an
    object has no [get], and a truthy parts field that is a number cannot
    be subscripted. *)
Example scan_event_not_object final :
  scan_event final (JInt 5)
  = Raise (AttributeError "'int' object has no attribute 'get'").
Proof. reflexivity. Qed.

Example extractFinal_number_parts :
  extractFinal
    [ event_of (content_of "model" [text_part "A"]);
      event_of (JObject (<[ "role" := JString "model" ]>
                         {[ "parts" := JInt 5 ]})) ]
  = Raise (TypeError "'int' object is not subscriptable").
Proof. vm_compute. reflexivity. Qed.

(** ** Facts about the two outbound calls *)

Lemma create_session_eq E agent_url user_id app_name st :
  let c := create_session_call agent_url user_id app_name (new_session_id E) in
  create_session E agent_url user_id app_name st =
  match upstream E (calls st) c with
  | Responded r =>
      if is_success (Response.status_code r)
      then (Ok (new_session_id E), issued c st)
      else (Raise (HTTPStatusError (Response.status_code r) (Response.text r)),
            issued c st)
  | TimedOut msg => (Raise (TimeoutException msg), issued c st)
  | Failed msg => (Raise (TransportError msg), issued c st)
  end.
Proof.
  intros c. unfold create_session, bind, post, raise_for_status. fold c.
  destruct (upstream E (calls st) c) as [r|msg|msg]; try done.
  by destruct (is_success (Response.status_code r)).
Qed.

Lemma run_agent_session_eq E agent_url message user_id app_name sid st :
  let c := run_call agent_url message user_id app_name sid in
  run_agent_session E agent_url message user_id app_name sid st =
  match upstream E (calls st) c with
  | Responded r =>
      if is_success (Response.status_code r)
      then match Response.json r with
           | inr v => match py_iter v with
                      | Ok events => (extractFinal events, issued c st)
                      | Raise e => (Raise e, issued c st)
                      end
           | inl msg => (Raise (JSONDecodeError msg), issued c st)
           end
      else (Raise (HTTPStatusError (Response.status_code r) (Response.text r)),
            issued c st)
  | TimedOut msg => (Raise (TimeoutException msg), issued c st)
  | Failed msg => (Raise (TransportError msg), issued c st)
  end.
Proof.
  intros c.
  unfold run_agent_session, bind, post, raise_for_status, response_json, lift.
  fold c.
  destruct (upstream E (calls st) c) as [r|msg|msg]; try done.
  destruct (is_success (Response.status_code r)); [|done].
  unfold ret, raise. destruct (Response.json r) as [msg|v]; [done|].
  by destruct (py_iter v).
Qed.

(** Every path through the [try] block issues the create-session call
    first, and nothing before it. *)
Lemma run_agent_try_calls E request agent_url st :
  ∃ later,
    calls (snd (run_agent_try E request agent_url st)) =
    (calls st ++
     create_session_call agent_url (AgentRequest.user_id request)
       (AgentRequest.agent_name request) (new_session_id E) :: later)%list.
Proof.
  unfold run_agent_try, bind. rewrite create_session_eq. cbv zeta.
  set (c := create_session_call _ _ _ _).
  destruct (upstream E (calls st) c) as [r|msg|msg];
    try (by exists []).
  destruct (is_success (Response.status_code r)); [|by exists []].
  rewrite run_agent_session_eq. cbv zeta.
  set (c2 := run_call _ _ _ _ _). simpl.
  exists [c2].
  assert (Hc : calls (issued c2 (issued c st)) = (calls st ++ [c; c2])%list).
  { simpl. by rewrite <- app_assoc. }
  destruct (upstream E (calls st ++ [c]) c2) as [r2|msg|msg]; try done.
  destruct (is_success (Response.status_code r2)); [|done].
  destruct (Response.json r2) as [msg|v]; [done|].
  destruct (py_iter v) as [events|e]; [|done].
  destruct (extractFinal events) as [final|e]; [|done].
  unfold lift. by destruct (new_AgentResponse _ _ _ _ _).
Qed.

Lemma handle_calls name e st : calls (snd (handle name e st)) = calls st.
Proof. by destruct e. Qed.

Lemma handle_not_Return name e st r st' : handle name e st ≠ (Return r, st').
Proof. by destruct e. Qed.

(** ** The response extractor: last eligible event, sentinel, first part *)

(** C1. For every sequence of turn events that contains an eligible event,
    [extractFinal] returns the text of the first part of the last eligible
    one: whatever precedes it (eligible or not) is overridden, and the
    ineligible events after it leave the answer alone. *)
Theorem extractFinal_last_eligible (pre post : list json) (event t : json) :
  Forall TurnEvent (pre ++ event :: post) →
  eligible_text event = Some t →
  Forall ineligible post →
  extractFinal (pre ++ event :: post) = Ok t.
Proof.
  intros Hshape Ht Hpost.
  apply Forall_app in Hshape as [Hpre Hrest].
  unfold extractFinal. rewrite scan_app, (scan_last_eligible _ _ Hpre).
  by apply scan_from_eligible.
Qed.

Lemma extractFinal_last_eligible_witness :
  extractFinal
    ([ event_of (content_of "model" [text_part "A"]);
       event_of (content_of "user" [text_part "hi"]);
       event_of (content_of "model" [text_part "B"]) ]
     ++ event_of (content_of "model" [text_part "C"; text_part "D"])
     :: [ event_of (content_of "model" []);
          event_of (content_of "tool" [text_part "E"]);
          event_of JNull;
          event_of (content_of "model" [JString "F"]) ])
  = Ok (JString "C").
Proof.
  apply extractFinal_last_eligible.
  - repeat (constructor; [vm_compute; exact I|]). constructor.
  - vm_compute. reflexivity.
  - repeat (constructor; [vm_compute; reflexivity|]). constructor.
Defined.

(** C2, as the specification words it, fails on the text of the sentinel:
    with a single model event that has no parts the loop returns the
    constant of the source, which is another string. *)
Lemma extractFinal_sentinel_text :
  Forall TurnEvent [event_of (content_of "model" [])] ∧
  Forall ineligible [event_of (content_of "model" [])] ∧
  extractFinal [event_of (content_of "model" [])]
    ≠ Ok (JString "no response produced").
Proof.
  split; [|split].
  - constructor; [vm_compute; exact I | constructor].
  - constructor; [vm_compute; reflexivity | constructor].
  - vm_compute. discriminate.
Qed.

(** C2 (amended). For every sequence of turn events none of which is
    eligible, [extractFinal] returns the fixed sentinel of the source,
    "Agent did not provide a final text response.", unchanged. *)
Theorem extractFinal_no_eligible (events : list json) :
  Forall TurnEvent events →
  Forall ineligible events →
  extractFinal events
  = Ok (JString "Agent did not provide a final text response.").
Proof. intros Hshape Hin. by apply scan_ineligible. Qed.

Lemma extractFinal_no_eligible_witness :
  extractFinal
    [ event_of (content_of "user" [text_part "hi"]);
      event_of (content_of "model" []);
      event_of (content_of "model" [JObject {[ "data" := JInt 1 ]}]);
      JObject ∅ ]
  = Ok (JString "Agent did not provide a final text response.").
Proof.
  apply extractFinal_no_eligible.
  - repeat (constructor; [vm_compute; exact I|]). constructor.
  - repeat (constructor; [vm_compute; reflexivity|]). constructor.
Defined.

(** C3. Only the first element of an event's parts is inspected: replacing
    the second and later parts of any event, by anything, never changes
    what [extractFinal] returns. *)
Theorem extractFinal_first_part_only
    (pre post : list json) (e c : gmap string json)
    (first : json) (others others' : list json) :
  extractFinal
    (pre ++ JObject (<[ "content" :=
               JObject (<[ "parts" := JArray (first :: others) ]> c) ]> e)
         :: post)
  = extractFinal
    (pre ++ JObject (<[ "content" :=
               JObject (<[ "parts" := JArray (first :: others') ]> c) ]> e)
         :: post).
Proof.
  unfold extractFinal. rewrite !scan_app.
  destruct (scan (JString sentinel) pre) as [final|err]; [|done].
  simpl.
  assert (Hstep : ∀ rest,
    scan_event final (JObject (<[ "content" :=
        JObject (<[ "parts" := JArray (first :: rest) ]> c) ]> e))
    = if eq_str (default JNull (c !! "role")) "model"
      then match first with
           | JObject p0 => Ok (default final (p0 !! "text"))
           | _ => Ok final
           end
      else Ok final).
  { intros rest. unfold scan_event, py_get.
    rewrite lookup_insert_eq. cbn [default from_option id].
    rewrite (truthy_object_nonempty _ "parts" (JArray (first :: rest)))
      by apply lookup_insert_eq.
    rewrite (has_key_Some _ "parts" (JArray (first :: rest)))
      by apply lookup_insert_eq.
    rewrite lookup_insert_ne by done. rewrite lookup_insert_eq.
    rewrite andb_true_r. cbn [andb default from_option id truthy py_first].
    destruct (eq_str _ _); [|done].
    destruct first as [| | | | | |p0]; try done.
    by destruct (p0 !! "text"). }
  by rewrite !Hstep.
Qed.

Example second_part_not_returned :
  extractFinal
    [event_of (content_of "model" [text_part "A"; text_part "B"])]
  = Ok (JString "A").
Proof. vm_compute. reflexivity. Qed.

(** C10. Eligibility does not ask for a non-empty text: when the first part
    of the last eligible event carries the empty string, [extractFinal]
    returns the empty string, and that is not the sentinel. The sentinel
    is only the initial value of the loop: once an event is eligible the
    answer no longer depends on it, and no later event puts it back. *)
Theorem extractFinal_empty_text (pre post : list json) (event : json) :
  Forall TurnEvent (pre ++ event :: post) →
  eligible_text event = Some (JString "") →
  Forall ineligible post →
  extractFinal (pre ++ event :: post) = Ok (JString "")
  ∧ extractFinal (pre ++ event :: post) ≠ Ok (JString sentinel)
  ∧ ∀ initial_value,
      scan initial_value (pre ++ event :: post) = Ok (JString "").
Proof.
  intros Hshape Ht Hpost.
  apply Forall_app in Hshape as [Hpre Hrest].
  assert (Hany : ∀ initial_value,
            scan initial_value (pre ++ event :: post) = Ok (JString "")).
  { intros initial_value.
    rewrite scan_app, (scan_last_eligible _ _ Hpre).
    by apply scan_from_eligible. }
  unfold extractFinal. rewrite Hany.
  split; [done|]. split; [|done]. unfold sentinel. congruence.
Qed.

Lemma extractFinal_empty_text_witness :
  extractFinal
    ([ event_of (content_of "model" [text_part "A"]) ]
     ++ event_of (content_of "model" [text_part ""])
     :: [ event_of (content_of "model" []) ])
  = Ok (JString "")
  ∧ extractFinal
      ([ event_of (content_of "model" [text_part "A"]) ]
       ++ event_of (content_of "model" [text_part ""])
       :: [ event_of (content_of "model" []) ])
    ≠ Ok (JString sentinel)
  ∧ ∀ initial_value,
      scan initial_value
        ([ event_of (content_of "model" [text_part "A"]) ]
         ++ event_of (content_of "model" [text_part ""])
         :: [ event_of (content_of "model" []) ])
      = Ok (JString "").
Proof.
  apply extractFinal_empty_text.
  - repeat (constructor; [vm_compute; exact I|]). constructor.
  - vm_compute. reflexivity.
  - repeat (constructor; [vm_compute; reflexivity|]). constructor.
Defined.

(** ** The gateway endpoint: failures *)

(** C4. A request whose agent name is absent from the registry fails with
    status 404 (not found) and leaves the state as it was: no outbound
    call, neither create-session nor run, is issued. *)
Theorem run_agent_not_found (E : env) (request : AgentRequest.t) (st : state) :
  AGENT_REGISTRY !! AgentRequest.agent_name request = None →
  run_agent E request st =
    (Fail {| status_code := 404;
             detail := "Agent '" ++ AgentRequest.agent_name request
                       ++ "' not found" |}, st)
  ∧ calls (snd (run_agent E request st)) = calls st.
Proof. intros Hmiss. unfold run_agent. cbv zeta. by rewrite Hmiss. Qed.

Lemma run_agent_not_found_witness :
  run_agent world_ok (AgentRequest.mk "weather_agent" "hi" "u1" None) initial =
    (Fail {| status_code := 404;
             detail := "Agent 'weather_agent' not found" |}, initial)
  ∧ calls (snd (run_agent world_ok
                  (AgentRequest.mk "weather_agent" "hi" "u1" None) initial))
    = [].
Proof.
  apply (run_agent_not_found world_ok
           (AgentRequest.mk "weather_agent" "hi" "u1" None) initial).
  vm_compute. reflexivity.
Defined.

(** C5. On a registry hit, when the create-session call is answered with a
    non-success status, the request fails with that very status and with
    the upstream body, verbatim, behind the fixed prefix of the detail;
    the create-session call is the only call issued, the run call never
    is. *)
Theorem run_agent_create_session_error
    (E : env) (request : AgentRequest.t) (st : state)
    (agent_url : string) (r : Response.t) :
  AGENT_REGISTRY !! AgentRequest.agent_name request = Some agent_url →
  upstream E (calls st)
    (create_session_call agent_url (AgentRequest.user_id request)
       (AgentRequest.agent_name request) (new_session_id E)) = Responded r →
  is_success (Response.status_code r) = false →
  fst (run_agent E request st) =
    Fail {| status_code := Response.status_code r;
            detail := "Error from ADK server: " ++ Response.text r |}
  ∧ calls (snd (run_agent E request st)) =
    (calls st ++
     [create_session_call agent_url (AgentRequest.user_id request)
        (AgentRequest.agent_name request) (new_session_id E)])%list.
Proof.
  intros Hhit Hreply Hstatus. unfold run_agent, run_agent_try, bind.
  cbv zeta. rewrite Hhit, create_session_eq. cbv zeta.
  by rewrite Hreply, Hstatus.
Qed.

Lemma run_agent_create_session_error_witness :
  fst (run_agent world_create_500 calc_request initial) =
    Fail {| status_code := 500; detail := "Error from ADK server: boom" |}
  ∧ calls (snd (run_agent world_create_500 calc_request initial)) =
    [create_session_call "http://localhost:8000" "u1" "calc_agent"
       "session-1700000000"].
Proof.
  apply (run_agent_create_session_error world_create_500 calc_request initial
           "http://localhost:8000" (Response.mk 500 "boom" (inr JNull))).
  - vm_compute. reflexivity.
  - vm_compute. reflexivity.
  - vm_compute. reflexivity.
Defined.

(** C6, as the specification words it, fails: a create-session call that
    runs into its timeout and one that meets another transport fault are
    answered to the caller in the same way, with status 500. *)
Lemma timeout_not_distinct :
  fst (run_agent world_create_timeout calc_request initial)
  = Fail {| status_code := 500; detail := "" |}
  ∧ fst (run_agent world_create_timeout calc_request initial)
    = fst (run_agent world_create_refused calc_request initial).
Proof. split; vm_compute; reflexivity. Qed.

(** C6 (amended). The create-session call is issued under a timeout of 10
    and the run call under a timeout of 60; when either expires the
    request fails through the generic handler, with status 500 and the
    exception's message as detail, exactly as for any other unexpected
    fault with that message: there is no separate timeout category. *)
Theorem run_agent_timeout
    (E : env) (request : AgentRequest.t) (st : state)
    (agent_url msg : string) :
  let create :=
    create_session_call agent_url (AgentRequest.user_id request)
      (AgentRequest.agent_name request) (new_session_id E) in
  let run :=
    run_call agent_url (AgentRequest.message request)
      (AgentRequest.user_id request) (AgentRequest.agent_name request)
      (new_session_id E) in
  AGENT_REGISTRY !! AgentRequest.agent_name request = Some agent_url →
  upstream E (calls st) create = TimedOut msg
  ∨ (∃ r, upstream E (calls st) create = Responded r
          ∧ is_success (Response.status_code r) = true
          ∧ upstream E (calls st ++ [create]) run = TimedOut msg) →
  timeout create = (10 # 1)%Q ∧ timeout run = (60 # 1)%Q
  ∧ fst (run_agent E request st) = Fail {| status_code := 500; detail := msg |}
  ∧ ∀ st', handle (AgentRequest.agent_name request) (TimeoutException msg) st'
           = handle (AgentRequest.agent_name request) (TransportError msg) st'.
Proof.
  intros create run Hhit Hexpired.
  split; [done|]. split; [done|]. split; [|done].
  unfold run_agent, run_agent_try, bind. cbv zeta.
  rewrite Hhit, create_session_eq. cbv zeta. fold create.
  destruct Hexpired as [Hcreate | (r & Hcreate & Hstatus & Hrun)].
  - by rewrite Hcreate.
  - rewrite Hcreate, Hstatus, run_agent_session_eq. cbv zeta. fold run.
    simpl. by rewrite Hrun.
Qed.

Lemma run_agent_timeout_witness :
  fst (run_agent world_run_timeout calc_request initial)
  = Fail {| status_code := 500; detail := "" |}.
Proof.
  apply (run_agent_timeout world_run_timeout calc_request initial
           "http://localhost:8000" "").
  - vm_compute. reflexivity.
  - right. exists (Response.mk 200 "{}" (inr JNull)).
    split; [|split]; vm_compute; reflexivity.
Defined.

(** ** The gateway endpoint: sessions and the successful answer *)

(** C7. The optional session identifier of the request is never read: two
    requests that differ only there get the same answer and cause the
    same effects. On a registry hit the first call issued is always a
    create-session call for the identifier generated from the clock; on a
    miss no call is issued. *)
Theorem run_agent_ignores_session_id
    (E : env) (request : AgentRequest.t) (st : state)
    (sid sid' : option string) :
  run_agent E (with_session_id sid request) st
  = run_agent E (with_session_id sid' request) st
  ∧ match AGENT_REGISTRY !! AgentRequest.agent_name request with
    | Some agent_url =>
        ∃ later,
          calls (snd (run_agent E (with_session_id sid request) st)) =
          (calls st ++
           create_session_call agent_url (AgentRequest.user_id request)
             (AgentRequest.agent_name request) (new_session_id E)
           :: later)%list
    | None => calls (snd (run_agent E (with_session_id sid request) st))
              = calls st
    end.
Proof.
  split; [reflexivity|].
  unfold run_agent. cbv zeta.
  change (AgentRequest.agent_name (with_session_id sid request))
    with (AgentRequest.agent_name request).
  destruct (AGENT_REGISTRY !! AgentRequest.agent_name request)
    as [agent_url|]; [|done].
  destruct (run_agent_try_calls E (with_session_id sid request) agent_url st)
    as [later Hcalls].
  exists later.
  destruct (run_agent_try E (with_session_id sid request) agent_url st)
    as [[resp|e] st']; simpl in *; [done|].
  by rewrite handle_calls.
Qed.

Example caller_session_id_unused :
  run_agent world_ok (with_session_id (Some "session-42") calc_request) initial
  = run_agent world_ok calc_request initial
  ∧ AgentResponse.session_id <$>
      (match fst (run_agent world_ok
                    (with_session_id (Some "session-42") calc_request) initial)
       with Return r => Some r | Fail _ => None end)
    = Some "session-1700000000".
Proof. split; vm_compute; reflexivity. Qed.

(** C8. [create_session] derives the session identifier from the clock
    reading cut to whole seconds and from nothing else: a call that the
    target accepts returns "session-" followed by that number, so two
    accepted calls whose readings fall in the same second return the same
    identifier, whatever the target, user and agent are. *)
Theorem create_session_id_from_seconds
    (E1 E2 : env) (url1 user1 app1 url2 user2 app2 : string)
    (st1 st2 : state) (r1 r2 : Response.t) :
  upstream E1 (calls st1)
    (create_session_call url1 user1 app1 (new_session_id E1)) = Responded r1 →
  is_success (Response.status_code r1) = true →
  upstream E2 (calls st2)
    (create_session_call url2 user2 app2 (new_session_id E2)) = Responded r2 →
  is_success (Response.status_code r2) = true →
  py_int (clock E1) = py_int (clock E2) →
  fst (create_session E1 url1 user1 app1 st1)
    = Ok ("session-" ++ str_int (py_int (clock E1)))
  ∧ fst (create_session E2 url2 user2 app2 st2)
    = fst (create_session E1 url1 user1 app1 st1).
Proof.
  intros Hr1 Hs1 Hr2 Hs2 Hsecond.
  rewrite !create_session_eq. cbv zeta.
  rewrite Hr1, Hs1, Hr2, Hs2. simpl. unfold new_session_id.
  by rewrite Hsecond.
Qed.

Lemma create_session_id_from_seconds_witness :
  fst (create_session (world (17000000001 # 10)%Q [answer 200 "{}" JNull])
         "http://localhost:8000" "u1" "calc_agent" initial)
    = Ok "session-1700000000"
  ∧ fst (create_session (world (17000000009 # 10)%Q [answer 201 "" JNull])
           "http://localhost:8000" "u2" "jarvis_agent" initial)
    = fst (create_session (world (17000000001 # 10)%Q [answer 200 "{}" JNull])
             "http://localhost:8000" "u1" "calc_agent" initial).
Proof.
  apply (create_session_id_from_seconds
           (world (17000000001 # 10)%Q [answer 200 "{}" JNull])
           (world (17000000009 # 10)%Q [answer 201 "" JNull])
           _ _ _ _ _ _ initial initial
           (Response.mk 200 "{}" (inr JNull)) (Response.mk 201 "" (inr JNull)));
    vm_compute; reflexivity.
Defined.

(** C9. Every request that succeeds went through a registry hit, an
    accepted create-session call and an accepted run call, and its answer
    holds exactly: the final answer extracted from the events of the run
    response, the session identifier generated by [create_session] for
    this request, the agent name of the request, and the status
    "success". *)
Theorem run_agent_success
    (E : env) (request : AgentRequest.t) (st st' : state)
    (resp : AgentResponse.t) :
  run_agent E request st = (Return resp, st') →
  ∃ agent_url run_response body_value events final,
    AGENT_REGISTRY !! AgentRequest.agent_name request = Some agent_url
    ∧ fst (create_session E agent_url (AgentRequest.user_id request)
             (AgentRequest.agent_name request) st)
      = Ok (new_session_id E)
    ∧ upstream E
        (calls st ++
         [create_session_call agent_url (AgentRequest.user_id request)
            (AgentRequest.agent_name request) (new_session_id E)])
        (run_call agent_url (AgentRequest.message request)
           (AgentRequest.user_id request) (AgentRequest.agent_name request)
           (new_session_id E))
      = Responded run_response
    ∧ Response.json run_response = inr body_value
    ∧ py_iter body_value = Ok events
    ∧ extractFinal events = Ok (JString final)
    ∧ resp = AgentResponse.mk final (new_session_id E)
               (AgentRequest.agent_name request) "success".
Proof.
  unfold run_agent. cbv zeta.
  destruct (AGENT_REGISTRY !! AgentRequest.agent_name request)
    as [agent_url|]; [|done].
  unfold run_agent_try, bind. rewrite create_session_eq. cbv zeta.
  set (create := create_session_call _ _ _ _).
  destruct (upstream E (calls st) create) as [r|msg|msg] eqn:Hcreate;
    try (by intros ?%handle_not_Return).
  destruct (is_success (Response.status_code r)) eqn:Hstatus;
    [|by intros ?%handle_not_Return].
  rewrite run_agent_session_eq. cbv zeta.
  set (run := run_call _ _ _ _ _). simpl.
  destruct (upstream E (calls st ++ [create]) run)
    as [run_response|msg|msg] eqn:Hrun;
    try (by intros ?%handle_not_Return).
  destruct (is_success (Response.status_code run_response));
    [|by intros ?%handle_not_Return].
  destruct (Response.json run_response) as [msg|body_value] eqn:Hjson;
    [by intros ?%handle_not_Return|].
  destruct (py_iter body_value) as [events|e] eqn:Hiter;
    [|by intros ?%handle_not_Return].
  destruct (extractFinal events) as [final|e] eqn:Hfinal;
    [|by intros ?%handle_not_Return].
  unfold lift, new_AgentResponse.
  destruct final as [| | | |final| |];
    try (by intros ?%handle_not_Return).
  intros [= <- <-].
  exists agent_url, run_response, body_value, events, final.
  repeat split; try done.
  rewrite create_session_eq. cbv zeta. fold create.
  by rewrite Hcreate, Hstatus.
Qed.

Lemma run_agent_success_witness :
  ∃ agent_url run_response body_value events final,
    AGENT_REGISTRY !! "calc_agent" = Some agent_url
    ∧ fst (create_session world_ok agent_url "u1" "calc_agent" initial)
      = Ok (new_session_id world_ok)
    ∧ upstream world_ok
        ([] ++ [create_session_call agent_url "u1" "calc_agent"
                  (new_session_id world_ok)])
        (run_call agent_url "hi" "u1" "calc_agent" (new_session_id world_ok))
      = Responded run_response
    ∧ Response.json run_response = inr body_value
    ∧ py_iter body_value = Ok events
    ∧ extractFinal events = Ok (JString final)
    ∧ AgentResponse.mk "B" "session-1700000000" "calc_agent" "success"
      = AgentResponse.mk final (new_session_id world_ok) "calc_agent" "success".
Proof.
  apply (run_agent_success world_ok calc_request initial
           (snd (run_agent world_ok calc_request initial))
           (AgentResponse.mk "B" "session-1700000000" "calc_agent" "success")).
  vm_compute. reflexivity.
Defined.

(** X20. The converse direction: a registry hit, an accepted create-session
    call and an accepted run call whose body is a list of events with a
    string as final answer are enough to succeed, with exactly these two
    calls issued. *)
Lemma run_agent_succeeds
    (E : env) (request : AgentRequest.t) (st : state)
    (agent_url : string) (r run_response : Response.t)
    (events : list json) (final : string) :
  let create :=
    create_session_call agent_url (AgentRequest.user_id request)
      (AgentRequest.agent_name request) (new_session_id E) in
  let run :=
    run_call agent_url (AgentRequest.message request)
      (AgentRequest.user_id request) (AgentRequest.agent_name request)
      (new_session_id E) in
  AGENT_REGISTRY !! AgentRequest.agent_name request = Some agent_url →
  upstream E (calls st) create = Responded r →
  is_success (Response.status_code r) = true →
  upstream E (calls st ++ [create]) run = Responded run_response →
  is_success (Response.status_code run_response) = true →
  Response.json run_response = inr (JArray events) →
  extractFinal events = Ok (JString final) →
  run_agent E request st =
    (Return (AgentResponse.mk final (new_session_id E)
               (AgentRequest.agent_name request) "success"),
     issued run (issued create st)).
Proof.
  intros create run Hhit Hc Hcs Hr Hrs Hjson Hfinal.
  unfold run_agent, run_agent_try, bind. cbv zeta.
  rewrite Hhit, create_session_eq. cbv zeta. fold create.
  rewrite Hc, Hcs, run_agent_session_eq. cbv zeta. fold run. simpl.
  rewrite Hr, Hrs, Hjson. simpl. by rewrite Hfinal.
Qed.

(** The two end-to-end examples of the specification. *)
Example gateway_returns_last_model_text :
  fst (run_agent world_ok calc_request initial)
  = Return (AgentResponse.mk "B" "session-1700000000" "calc_agent" "success").
Proof. vm_compute. reflexivity. Qed.

Example gateway_returns_sentinel_without_parts :
  fst (run_agent
         (world (17000000005 # 10)%Q
            [ answer 200 "{}" JNull;
              answer 200 "[...]" (JArray [event_of (content_of "model" [])]) ])
         calc_request initial)
  = Return (AgentResponse.mk "Agent did not provide a final text response."
              "session-1700000000" "calc_agent" "success").
Proof. vm_compute. reflexivity. Qed.

(** ** More on the response extractor *)

Lemma scan_event_no_fault final event :
  faults event = false →
  scan_event final event = Ok (default final (eligible_text event)).
Proof.
  unfold faults, unsubscriptable, scan_event, eligible_text, py_get.
  destruct event as [| | | | |l|e]; try done.
  destruct (e !! "content") as [content|]; simpl; [|done].
  destruct content as [| | | | |l|c]; try done.
  destruct (c !! "parts") as [parts|] eqn:Hparts.
  - rewrite (has_key_Some _ _ _ Hparts), andb_true_r.
    rewrite (truthy_object_nonempty _ _ _ Hparts). simpl.
    destruct (c !! "role") as [role|]; simpl; [|done].
    destruct role as [| | | |r| |]; simpl; try done.
    destruct (String.eqb r "model"); simpl.
    + destruct parts as [| |n|f|s|ps|m]; simpl; try done.
      * by destruct b.
      * by destruct (n =? 0).
      * by destruct f.
      * by destruct s.
      * destruct ps as [|[| | | | | |p0] ps]; try done.
        by destruct (p0 !! "text").
      * by destruct (bool_decide (m = ∅)).
    + intros _. by destruct parts as [| | | | |[|[] ?]|].
  - intros _. rewrite (has_key_None _ _ Hparts), andb_false_r.
    by destruct (c !! "role") as [[]|].
Qed.

Lemma scan_event_fault event :
  faults event = true →
  ∃ e, ∀ final, scan_event final event = Raise e.
Proof.
  unfold faults, unsubscriptable, scan_event, py_get.
  destruct event as [| | | | |l|e]; try (by eexists).
  destruct (e !! "content") as [content|]; simpl; [|done].
  destruct content as [| | | | |l|c]; try done.
  destruct (c !! "role") as [role|]; [|done].
  destruct role as [| | | |r| |]; try done.
  destruct (c !! "parts") as [parts|] eqn:Hparts; [|done].
  rewrite (has_key_Some _ _ _ Hparts), andb_true_r.
  rewrite (truthy_object_nonempty _ _ _ Hparts). simpl.
  destruct (String.eqb r "model"); [|done]. simpl.
  destruct (truthy parts); [|done]. simpl.
  destruct parts as [| | | |s|ps|]; try done; intros _; by eexists.
Qed.

Lemma scan_no_fault final events :
  Forall (λ ev, faults ev = false) events →
  scan final events = Ok (default final (last (omap eligible_text events))).
Proof.
  intros Hok. revert final.
  induction Hok as [|x xs Hx _ IH]; intros final; simpl; [done|].
  rewrite (scan_event_no_fault _ _ Hx), IH.
  destruct (eligible_text x) as [t|]; simpl; [|done].
  rewrite last_cons.
  change (list_omap json json eligible_text xs) with (omap eligible_text xs).
  by destruct (last (omap eligible_text xs)).
Qed.

Lemma scan_fault final pre event post e :
  Forall (λ ev, faults ev = false) pre →
  (∀ final', scan_event final' event = Raise e) →
  scan final (pre ++ event :: post) = Raise e.
Proof.
  intros Hpre He. rewrite scan_app, (scan_no_fault _ _ Hpre). simpl.
  by rewrite He.
Qed.

Lemma scan_Ok_no_fault final events v :
  scan final events = Ok v → Forall (λ ev, faults ev = false) events.
Proof.
  revert final. induction events as [|x xs IH]; intros final Hv; [constructor|].
  simpl in Hv. destruct (faults x) eqn:Hx.
  - destruct (scan_event_fault _ Hx) as [e He]. by rewrite He in Hv.
  - constructor; [done|].
    rewrite (scan_event_no_fault _ _ Hx) in Hv. eauto.
Qed.

(** X1. [extractFinal] returns normally exactly when no event of the
    sequence faults, that is when every event is an object and no model
    content has a truthy [parts] that is neither a list nor a string. *)
Theorem extractFinal_returns_iff (events : list json) :
  (∃ v, extractFinal events = Ok v)
  ↔ Forall (λ ev, faults ev = false) events.
Proof.
  split.
  - intros [v Hv]. by eapply scan_Ok_no_fault.
  - intros Hok. eexists. by apply scan_no_fault.
Qed.

(** X2. On a sequence without faulting events, turn events or not,
    [extractFinal] returns the text of the last eligible event, and the
    sentinel when there is none: non-object content, a role that is not a
    string, falsy [parts] of any type and string [parts] are skipped. *)
Theorem extractFinal_value (events : list json) :
  Forall (λ ev, faults ev = false) events →
  extractFinal events
  = Ok (default (JString sentinel) (last (omap eligible_text events))).
Proof. apply scan_no_fault. Qed.

Lemma extractFinal_value_witness :
  extractFinal
    [ event_of (content_of "model" [text_part "A"]);
      event_of (JString "model");
      event_of (JObject (<[ "role" := JString "model" ]>
                         {[ "parts" := JString "text" ]}));
      event_of (JObject (<[ "role" := JString "model" ]>
                         {[ "parts" := JInt 0 ]}));
      event_of (JObject (<[ "role" := JInt 1 ]>
                         {[ "parts" := JBool true ]}));
      JObject ∅ ]
  = Ok (JString "A").
Proof.
  rewrite extractFinal_value.
  - vm_compute. reflexivity.
  - repeat (constructor; [vm_compute; reflexivity|]). constructor.
Defined.

(** X3. The loop stops at the first faulting event: the exception is
    decided by that event alone, whatever came before without faulting
    and whatever comes after. *)
Theorem extractFinal_first_fault (event : json) :
  faults event = true →
  ∃ e, ∀ pre post,
    Forall (λ ev, faults ev = false) pre →
    extractFinal (pre ++ event :: post) = Raise e.
Proof.
  intros Hfault. destruct (scan_event_fault _ Hfault) as [e He].
  exists e. intros pre post Hpre. by apply scan_fault.
Qed.

Lemma extractFinal_first_fault_witness :
  ∃ e, ∀ pre post,
    Forall (λ ev, faults ev = false) pre →
    extractFinal
      (pre ++ event_of (JObject (<[ "role" := JString "model" ]>
                                 {[ "parts" := JObject {[ "0" := JNull ]} ]}))
           :: post)
    = Raise e.
Proof.
  apply extractFinal_first_fault. vm_compute. reflexivity.
Defined.

(** X4. Whatever [extractFinal] returns is either the sentinel or the
    first-part text of one event of the sequence: it never combines
    events and never returns a later part or another field. *)
Theorem extractFinal_origin (events : list json) (v : json) :
  extractFinal events = Ok v →
  v = JString sentinel ∨ Exists (λ ev, eligible_text ev = Some v) events.
Proof.
  intros Hv.
  assert (Hok : Forall (λ ev, faults ev = false) events).
  { by eapply scan_Ok_no_fault. }
  unfold extractFinal in Hv. rewrite (scan_no_fault _ _ Hok) in Hv.
  injection Hv as <-.
  destruct (last (omap eligible_text events)) as [t|] eqn:Hlast; simpl;
    [right | by left].
  apply last_Some_elem_of, list_elem_of_omap in Hlast as (ev & Hev & Ht).
  apply Exists_exists. exists ev. by split.
Qed.

(** X5. Earlier events do not matter once a later one is eligible: when a
    sequence without faults ends in a stretch that contains an eligible
    event, the answer is that of the stretch alone. *)
Theorem extractFinal_suffix (earlier later : list json) :
  Forall (λ ev, faults ev = false) earlier →
  Forall (λ ev, faults ev = false) later →
  Exists (λ ev, is_Some (eligible_text ev)) later →
  extractFinal (earlier ++ later) = extractFinal later.
Proof.
  intros Hearlier Hlater Hex. unfold extractFinal.
  rewrite scan_app, (scan_no_fault _ _ Hearlier), !(scan_no_fault _ _ Hlater).
  destruct (last (omap eligible_text later)) as [t|] eqn:Hlast; [done|].
  apply last_None in Hlast.
  apply Exists_exists in Hex as (ev & Hev & [t Ht]).
  assert (Hin : t ∈ omap eligible_text later).
  { apply list_elem_of_omap. by exists ev. }
  rewrite Hlast in Hin. by apply elem_of_nil in Hin.
Qed.

Lemma extractFinal_suffix_witness :
  extractFinal
    ([ event_of (content_of "model" [text_part "old"]);
       event_of (content_of "user" [text_part "more"]) ]
     ++ [ event_of (content_of "model" [text_part "new"]); JObject ∅ ])
  = extractFinal
      [ event_of (content_of "model" [text_part "new"]); JObject ∅ ].
Proof.
  apply extractFinal_suffix.
  - repeat (constructor; [vm_compute; reflexivity|]). constructor.
  - repeat (constructor; [vm_compute; reflexivity|]). constructor.
  - apply Exists_cons_hd. vm_compute. eauto.
Defined.

(** X6. The message object that the run call sends is never mistaken for
    an answer: an event that echoes it is skipped by the extractor,
    whatever the message text is, so that removing it from a sequence
    changes nothing. *)
Theorem new_message_echo_skipped
    (agent_url message user_id app_name session_id : string) :
  ∃ new_message,
    new_message_of (run_call agent_url message user_id app_name session_id)
    = Some new_message
    ∧ ∀ pre post,
        extractFinal (pre ++ event_of new_message :: post)
        = extractFinal (pre ++ post).
Proof.
  eexists. split; [vm_compute; reflexivity|].
  intros pre post. unfold extractFinal. rewrite !scan_app.
  destruct (scan (JString sentinel) pre) as [final|e]; [|done].
  simpl. by rewrite scan_event_no_fault.
Qed.

(** ** More on the gateway endpoint *)

(** The [try] block once both calls were answered as in [run_answered]. *)
Lemma run_agent_try_answered E request st agent_url run_response :
  run_answered E request st agent_url run_response →
  run_agent_try E request agent_url st =
  let st2 := issued (run_of E request agent_url)
               (issued (create_of E request agent_url) st) in
  if is_success (Response.status_code run_response)
  then match Response.json run_response with
       | inr v =>
           match py_iter v with
           | Ok events =>
               match extractFinal events with
               | Ok final =>
                   (new_AgentResponse E final (new_session_id E)
                      (AgentRequest.agent_name request) "success", st2)
               | Raise e => (Raise e, st2)
               end
           | Raise e => (Raise e, st2)
           end
       | inl msg => (Raise (JSONDecodeError msg), st2)
       end
  else (Raise (HTTPStatusError (Response.status_code run_response)
                 (Response.text run_response)), st2).
Proof.
  intros (_ & (r & Hcreate & Hstatus) & Hrun).
  unfold create_of, run_of in *.
  unfold run_agent_try, bind. rewrite create_session_eq. cbv zeta.
  rewrite Hcreate, Hstatus, run_agent_session_eq. cbv zeta. simpl.
  rewrite Hrun.
  destruct (is_success (Response.status_code run_response)); [|done].
  destruct (Response.json run_response) as [msg|v]; [done|].
  destruct (py_iter v) as [events|e]; [|done].
  by destruct (extractFinal events).
Qed.

Lemma run_agent_answered E request st agent_url run_response :
  run_answered E request st agent_url run_response →
  run_agent E request st =
  match run_agent_try E request agent_url st with
  | (Ok r, st') => (Return r, st')
  | (Raise e, st') => handle (AgentRequest.agent_name request) e st'
  end.
Proof. intros (Hhit & _). unfold run_agent. cbv zeta. by rewrite Hhit. Qed.

Ltac answered :=
  split; [vm_compute; reflexivity|];
  split; [eexists; split; vm_compute; reflexivity | vm_compute; reflexivity].

(** X7. When the run call is answered with a non-success status, the
    request fails with that status and the upstream body behind the fixed
    prefix; both calls were issued, in order, and nothing is retried. *)
Theorem run_agent_run_error
    (E : env) (request : AgentRequest.t) (st : state)
    (agent_url : string) (run_response : Response.t) :
  run_answered E request st agent_url run_response →
  is_success (Response.status_code run_response) = false →
  fst (run_agent E request st) =
    Fail {| status_code := Response.status_code run_response;
            detail := "Error from ADK server: " ++ Response.text run_response |}
  ∧ calls (snd (run_agent E request st)) =
    (calls st ++ [create_of E request agent_url; run_of E request agent_url])%list.
Proof.
  intros Hanswered Hstatus.
  rewrite (run_agent_answered _ _ _ _ _ Hanswered).
  rewrite (run_agent_try_answered _ _ _ _ _ Hanswered). cbv zeta.
  rewrite Hstatus. simpl. by rewrite <- app_assoc.
Qed.

Lemma run_agent_run_error_witness :
  fst (run_agent
         (world (17000000005 # 10)%Q
            [answer 200 "{}" JNull; answer 503 "overloaded" JNull])
         calc_request initial)
  = Fail {| status_code := 503;
            detail := "Error from ADK server: overloaded" |}.
Proof.
  apply (run_agent_run_error
           (world (17000000005 # 10)%Q
              [answer 200 "{}" JNull; answer 503 "overloaded" JNull])
           calc_request initial "http://localhost:8000"
           (Response.mk 503 "overloaded" (inr JNull))).
  - answered.
  - vm_compute. reflexivity.
Defined.

(** X8. When the accepted run response is not JSON, the request fails
    with status 500 and the decoder's message as detail. *)
Theorem run_agent_body_not_json
    (E : env) (request : AgentRequest.t) (st : state)
    (agent_url msg : string) (run_response : Response.t) :
  run_answered E request st agent_url run_response →
  is_success (Response.status_code run_response) = true →
  Response.json run_response = inl msg →
  fst (run_agent E request st) = Fail {| status_code := 500; detail := msg |}.
Proof.
  intros Hanswered Hstatus Hjson.
  rewrite (run_agent_answered _ _ _ _ _ Hanswered).
  rewrite (run_agent_try_answered _ _ _ _ _ Hanswered). cbv zeta.
  by rewrite Hstatus, Hjson.
Qed.

Lemma run_agent_body_not_json_witness :
  fst (run_agent
         (world (17000000005 # 10)%Q
            [ answer 200 "{}" JNull;
              Responded (Response.mk 200 "<html>"
                (inl "Expecting value: line 1 column 1 (char 0)")) ])
         calc_request initial)
  = Fail {| status_code := 500;
            detail := "Expecting value: line 1 column 1 (char 0)" |}.
Proof.
  apply (run_agent_body_not_json
           (world (17000000005 # 10)%Q
              [ answer 200 "{}" JNull;
                Responded (Response.mk 200 "<html>"
                  (inl "Expecting value: line 1 column 1 (char 0)")) ])
           calc_request initial "http://localhost:8000" _
           (Response.mk 200 "<html>"
              (inl "Expecting value: line 1 column 1 (char 0)"))).
  - answered.
  - vm_compute. reflexivity.
  - reflexivity.
Defined.

(** X9. When the accepted run response parses to [null], a boolean or a
    number, the loop cannot start: the request fails with status 500 and
    the interpreter's "object is not iterable" message for that type. *)
Theorem run_agent_body_not_iterable
    (E : env) (request : AgentRequest.t) (st : state)
    (agent_url : string) (run_response : Response.t) (v : json) :
  run_answered E request st agent_url run_response →
  is_success (Response.status_code run_response) = true →
  Response.json run_response = inr v →
  not_iterable v = true →
  fst (run_agent E request st) =
    Fail {| status_code := 500;
            detail := "'" ++ type_name v ++ "' object is not iterable" |}.
Proof.
  intros Hanswered Hstatus Hjson Hv.
  rewrite (run_agent_answered _ _ _ _ _ Hanswered).
  rewrite (run_agent_try_answered _ _ _ _ _ Hanswered). cbv zeta.
  rewrite Hstatus, Hjson. by destruct v.
Qed.

Lemma run_agent_body_not_iterable_witness :
  fst (run_agent
         (world (17000000005 # 10)%Q [answer 200 "{}" JNull; answer 200 "null" JNull])
         calc_request initial)
  = Fail {| status_code := 500;
            detail := "'NoneType' object is not iterable" |}.
Proof.
  apply (run_agent_body_not_iterable
           (world (17000000005 # 10)%Q
              [answer 200 "{}" JNull; answer 200 "null" JNull])
           calc_request initial "http://localhost:8000"
           (Response.mk 200 "null" (inr JNull)) JNull).
  - answered.
  - vm_compute. reflexivity.
  - reflexivity.
  - reflexivity.
Defined.

(** X10. When the accepted run response parses to a non-empty object (an
    error envelope, say) or a non-empty string, the loop meets a [str]
    item first and the request fails with status 500 and the detail
    "'str' object has no attribute 'get'". *)
Theorem run_agent_body_object_or_string
    (E : env) (request : AgentRequest.t) (st : state)
    (agent_url : string) (run_response : Response.t) (v : json) :
  run_answered E request st agent_url run_response →
  is_success (Response.status_code run_response) = true →
  Response.json run_response = inr v →
  (is_dict v = true ∨ type_name v = "str") →
  truthy v = true →
  fst (run_agent E request st) =
    Fail {| status_code := 500;
            detail := "'str' object has no attribute 'get'" |}.
Proof.
  intros Hanswered Hstatus Hjson Hkind Htruthy.
  rewrite (run_agent_answered _ _ _ _ _ Hanswered).
  rewrite (run_agent_try_answered _ _ _ _ _ Hanswered). cbv zeta.
  rewrite Hstatus, Hjson.
  destruct v as [| | | |s| |m]; try (by destruct Hkind).
  - by destruct s as [|c s].
  - simpl in Htruthy. apply negb_true_iff, bool_decide_eq_false in Htruthy.
    unfold py_iter.
    destruct (map_to_list m) as [|[k x] rest] eqn:Hlist.
    { by apply map_to_list_empty_iff in Hlist. }
    done.
Qed.

Lemma run_agent_body_object_or_string_witness :
  fst (run_agent
         (world (17000000005 # 10)%Q
            [ answer 200 "{}" JNull;
              answer 200 "{...}" (JObject {[ "error" := JString "no such app" ]}) ])
         calc_request initial)
  = Fail {| status_code := 500;
            detail := "'str' object has no attribute 'get'" |}.
Proof.
  apply (run_agent_body_object_or_string
           (world (17000000005 # 10)%Q
              [ answer 200 "{}" JNull;
                answer 200 "{...}"
                  (JObject {[ "error" := JString "no such app" ]}) ])
           calc_request initial "http://localhost:8000"
           (Response.mk 200 "{...}"
              (inr (JObject {[ "error" := JString "no such app" ]})))
           (JObject {[ "error" := JString "no such app" ]})).
  - answered.
  - vm_compute. reflexivity.
  - reflexivity.
  - left. reflexivity.
  - vm_compute. reflexivity.
Defined.

(** X11. When the accepted run response parses to an empty list, an empty
    object or the empty string, the loop runs zero times and the request
    succeeds with the sentinel as its answer. *)
Theorem run_agent_body_empty
    (E : env) (request : AgentRequest.t) (st : state)
    (agent_url : string) (run_response : Response.t) (v : json) :
  run_answered E request st agent_url run_response →
  is_success (Response.status_code run_response) = true →
  Response.json run_response = inr v →
  not_iterable v = false →
  truthy v = false →
  fst (run_agent E request st) =
    Return (AgentResponse.mk sentinel (new_session_id E)
              (AgentRequest.agent_name request) "success").
Proof.
  intros Hanswered Hstatus Hjson Hkind Hfalsy.
  rewrite (run_agent_answered _ _ _ _ _ Hanswered).
  rewrite (run_agent_try_answered _ _ _ _ _ Hanswered). cbv zeta.
  rewrite Hstatus, Hjson.
  destruct v as [| | | |s|l|m]; try done.
  - by destruct s.
  - by destruct l.
  - simpl in Hfalsy. apply negb_false_iff, bool_decide_eq_true in Hfalsy.
    subst m. simpl. by rewrite map_to_list_empty.
Qed.

Lemma run_agent_body_empty_witness :
  fst (run_agent
         (world (17000000005 # 10)%Q
            [answer 200 "{}" JNull; answer 200 "{}" (JObject ∅)])
         calc_request initial)
  = Return (AgentResponse.mk sentinel "session-1700000000" "calc_agent"
              "success").
Proof.
  apply (run_agent_body_empty
           (world (17000000005 # 10)%Q
              [answer 200 "{}" JNull; answer 200 "{}" (JObject ∅)])
           calc_request initial "http://localhost:8000"
           (Response.mk 200 "{}" (inr (JObject ∅))) (JObject ∅)).
  - answered.
  - vm_compute. reflexivity.
  - reflexivity.
  - reflexivity.
  - vm_compute. reflexivity.
Defined.

(** The loop raises interpreter exceptions only, which the generic
    clause answers with status 500. *)
Lemma scan_event_exn final event e name st :
  scan_event final event = Raise e →
  ∃ msg, fst (handle name e st) = Fail {| status_code := 500; detail := msg |}.
Proof.
  unfold scan_event, py_get, py_first. intros H.
  repeat case_match; simplify_eq; by eexists.
Qed.

(** X12. A faulting event in an accepted run response fails the whole
    request: the exception raised at that event goes to the generic
    handler, which answers with status 500, even when eligible events
    came before it. No partial answer is returned. *)
Theorem run_agent_faulting_event
    (E : env) (request : AgentRequest.t) (st : state)
    (agent_url : string) (run_response : Response.t)
    (pre post : list json) (event : json) :
  run_answered E request st agent_url run_response →
  is_success (Response.status_code run_response) = true →
  Response.json run_response = inr (JArray (pre ++ event :: post)) →
  Forall (λ ev, faults ev = false) pre →
  faults event = true →
  ∃ e msg,
    (∀ final, scan_event final event = Raise e)
    ∧ run_agent E request st
      = handle (AgentRequest.agent_name request) e
          (issued (run_of E request agent_url)
             (issued (create_of E request agent_url) st))
    ∧ fst (run_agent E request st)
      = Fail {| status_code := 500; detail := msg |}.
Proof.
  intros Hanswered Hstatus Hjson Hpre Hfault.
  rewrite (run_agent_answered _ _ _ _ _ Hanswered).
  rewrite (run_agent_try_answered _ _ _ _ _ Hanswered). cbv zeta.
  rewrite Hstatus, Hjson. simpl.
  destruct (scan_event_fault _ Hfault) as [e He].
  unfold extractFinal. rewrite (scan_fault _ _ _ _ _ Hpre He).
  destruct (scan_event_exn JNull event e (AgentRequest.agent_name request)
              (issued (run_of E request agent_url)
                 (issued (create_of E request agent_url) st)) (He JNull))
    as [msg Hmsg].
  by exists e, msg.
Qed.

Lemma run_agent_faulting_event_witness :
  ∃ e msg,
    (∀ final, scan_event final (JString "done") = Raise e)
    ∧ run_agent
        (world (17000000005 # 10)%Q
           [ answer 200 "{}" JNull;
             answer 200 "[...]"
               (JArray ([event_of (content_of "model" [text_part "A"])]
                        ++ JString "done" :: [])) ])
        calc_request initial
      = handle "calc_agent" e
          (issued (run_of (world (17000000005 # 10)%Q []) calc_request
                     "http://localhost:8000")
             (issued (create_of (world (17000000005 # 10)%Q []) calc_request
                        "http://localhost:8000") initial))
    ∧ fst (run_agent
             (world (17000000005 # 10)%Q
                [ answer 200 "{}" JNull;
                  answer 200 "[...]"
                    (JArray ([event_of (content_of "model" [text_part "A"])]
                             ++ JString "done" :: [])) ])
             calc_request initial)
      = Fail {| status_code := 500; detail := msg |}.
Proof.
  apply (run_agent_faulting_event
           (world (17000000005 # 10)%Q
              [ answer 200 "{}" JNull;
                answer 200 "[...]"
                  (JArray ([event_of (content_of "model" [text_part "A"])]
                           ++ JString "done" :: [])) ])
           calc_request initial "http://localhost:8000"
           (Response.mk 200 "[...]"
              (inr (JArray ([event_of (content_of "model" [text_part "A"])]
                            ++ JString "done" :: []))))
           [event_of (content_of "model" [text_part "A"])] []
           (JString "done")).
  - answered.
  - vm_compute. reflexivity.
  - reflexivity.
  - repeat (constructor; [vm_compute; reflexivity|]). constructor.
  - reflexivity.
Defined.

(** X13. When the text of the last eligible event is not a string (a
    number, [null], a list, ...), building the answer is refused: the
    request fails with status 500 and the validation message, after both
    calls succeeded. *)
Theorem run_agent_text_not_string
    (E : env) (request : AgentRequest.t) (st : state)
    (agent_url : string) (run_response : Response.t)
    (events : list json) (t : json) :
  run_answered E request st agent_url run_response →
  is_success (Response.status_code run_response) = true →
  Response.json run_response = inr (JArray events) →
  Forall (λ ev, faults ev = false) events →
  last (omap eligible_text events) = Some t →
  type_name t ≠ "str" →
  fst (run_agent E request st) =
    Fail {| status_code := 500; detail := validation_message E t |}.
Proof.
  intros Hanswered Hstatus Hjson Hok Hlast Ht.
  rewrite (run_agent_answered _ _ _ _ _ Hanswered).
  rewrite (run_agent_try_answered _ _ _ _ _ Hanswered). cbv zeta.
  rewrite Hstatus, Hjson. simpl.
  unfold extractFinal. rewrite (scan_no_fault _ _ Hok), Hlast. simpl.
  by destruct t.
Qed.

Lemma run_agent_text_not_string_witness :
  fst (run_agent
         (world (17000000005 # 10)%Q
            [ answer 200 "{}" JNull;
              answer 200 "[...]"
                (JArray [event_of (content_of "model"
                                     [JObject {[ "text" := JInt 42 ]}])]) ])
         calc_request initial)
  = Fail {| status_code := 500; detail := "Input should be a valid string" |}.
Proof.
  apply (run_agent_text_not_string
           (world (17000000005 # 10)%Q
              [ answer 200 "{}" JNull;
                answer 200 "[...]"
                  (JArray [event_of (content_of "model"
                                       [JObject {[ "text" := JInt 42 ]}])]) ])
           calc_request initial "http://localhost:8000"
           (Response.mk 200 "[...]"
              (inr (JArray [event_of (content_of "model"
                                        [JObject {[ "text" := JInt 42 ]}])])))
           [event_of (content_of "model" [JObject {[ "text" := JInt 42 ]}])]
           (JInt 42)).
  - answered.
  - vm_compute. reflexivity.
  - reflexivity.
  - repeat (constructor; [vm_compute; reflexivity|]). constructor.
  - vm_compute. reflexivity.
  - vm_compute. discriminate.
Defined.

Lemma scan_exn final events e name st :
  scan final events = Raise e →
  ∃ msg, fst (handle name e st) = Fail {| status_code := 500; detail := msg |}.
Proof.
  revert final. induction events as [|x xs IH]; intros final; simpl; [done|].
  destruct (scan_event final x) as [final'|e'] eqn:Hx; [by apply IH|].
  intros [= <-]. by eapply scan_event_exn.
Qed.

(** What the [try] block can raise: a status error only for a status that
    is not a success. *)
Lemma run_agent_try_raise E request agent_url st e st' :
  run_agent_try E request agent_url st = (Raise e, st') →
  match e with
  | HTTPStatusError code _ => is_success code = false
  | _ => True
  end.
Proof.
  unfold run_agent_try, bind. rewrite create_session_eq. cbv zeta.
  destruct (upstream E (calls st) _) as [r|msg|msg];
    try (by intros [= <- <-]).
  destruct (is_success (Response.status_code r)) eqn:Hr;
    [|by intros [= <- <-]].
  rewrite run_agent_session_eq. cbv zeta. simpl.
  destruct (upstream E (calls st ++ _) _) as [r2|msg|msg];
    try (by intros [= <- <-]).
  destruct (is_success (Response.status_code r2)) eqn:Hr2;
    [|by intros [= <- <-]].
  destruct (Response.json r2) as [msg|v]; [by intros [= <- <-]|].
  destruct (py_iter v) as [events|e'] eqn:Hiter.
  - destruct (extractFinal events) as [final|e'] eqn:Hfinal.
    + unfold lift, new_AgentResponse. by destruct final; intros [= <- <-].
    + intros [= <- <-].
      destruct (scan_exn _ _ _ "" st Hfinal) as [msg Hmsg].
      destruct e'; try done. by injection Hmsg as -> _.
  - intros [= <- <-]. destruct v; simpl in Hiter; by simplify_eq.
Qed.

(** X14. A failure is never reported with a success status: whenever
    [run_agent] fails, the status code it carries is outside 2xx. *)
Theorem run_agent_failure_status
    (E : env) (request : AgentRequest.t) (st : state) (e : HTTPException) :
  fst (run_agent E request st) = Fail e →
  is_success (status_code e) = false.
Proof.
  unfold run_agent. cbv zeta.
  destruct (AGENT_REGISTRY !! AgentRequest.agent_name request)
    as [agent_url|]; [|by intros [= <-]].
  destruct (run_agent_try E request agent_url st) as [[r|x] st'] eqn:Htry;
    [done|].
  apply run_agent_try_raise in Htry.
  destruct x; simpl; intros [= <-]; done.
Qed.

Lemma run_agent_failure_status_witness :
  is_success
    (status_code {| status_code := 500;
                    detail := "Error from ADK server: boom" |}) = false.
Proof.
  apply (run_agent_failure_status world_create_500 calc_request initial).
  vm_compute. reflexivity.
Defined.

(** X15. One request issues no call on a registry miss and otherwise the
    create-session call alone or the create-session call followed by the
    run call, appended to the calls made before; the run call is issued
    only after the target accepted the create-session call, and both
    carry the same generated session identifier. Nothing is retried. *)
Theorem run_agent_calls
    (E : env) (request : AgentRequest.t) (st : state) :
  ∃ added,
    calls (snd (run_agent E request st)) = (calls st ++ added)%list
    ∧ match AGENT_REGISTRY !! AgentRequest.agent_name request with
      | None => added = []
      | Some agent_url =>
          added = [create_of E request agent_url]
          ∨ (added = [create_of E request agent_url; run_of E request agent_url]
             ∧ ∃ r, upstream E (calls st) (create_of E request agent_url)
                    = Responded r
                    ∧ is_success (Response.status_code r) = true)
      end.
Proof.
  unfold run_agent. cbv zeta.
  destruct (AGENT_REGISTRY !! AgentRequest.agent_name request)
    as [agent_url|]; [|exists []; by rewrite app_nil_r].
  assert (Hcalls : ∀ p : result AgentResponse.t * state,
    calls (snd (match p with
                | (Ok r, st') => (Return r, st')
                | (Raise e, st') =>
                    handle (AgentRequest.agent_name request) e st'
                end)) = calls (snd p)).
  { intros [[r|e] st']; [done|]. apply handle_calls. }
  rewrite Hcalls. clear Hcalls.
  unfold run_agent_try, bind. rewrite create_session_eq. cbv zeta.
  fold (create_of E request agent_url).
  destruct (upstream E (calls st) (create_of E request agent_url))
    as [r|msg|msg] eqn:Hcreate;
    try (eexists; split; [reflexivity|by left]).
  destruct (is_success (Response.status_code r)) eqn:Hr;
    [|eexists; split; [reflexivity|by left]].
  rewrite run_agent_session_eq. cbv zeta.
  fold (run_of E request agent_url).
  exists [create_of E request agent_url; run_of E request agent_url].
  split; [|right; eauto].
  assert (Hboth :
    calls (issued (run_of E request agent_url)
             (issued (create_of E request agent_url) st))
    = (calls st ++ [create_of E request agent_url;
                    run_of E request agent_url])%list).
  { simpl. by rewrite <- app_assoc. }
  simpl.
  destruct (upstream E (calls st ++ _) _) as [r2|msg|msg]; try done.
  destruct (is_success (Response.status_code r2)); [|done].
  destruct (Response.json r2) as [msg|v]; [done|].
  destruct (py_iter v) as [events|e']; [|done].
  destruct (extractFinal events) as [final|e']; [|done].
  unfold lift. by destruct (new_AgentResponse _ _ _ _ _).
Qed.

(** X16. A request that succeeds and one that misses the registry log
    nothing; every other failure gives exactly one line to
    [logging.error]. Lines logged before are kept. *)
Theorem run_agent_log
    (E : env) (request : AgentRequest.t) (st : state) :
  match fst (run_agent E request st),
        AGENT_REGISTRY !! AgentRequest.agent_name request with
  | Fail _, Some _ =>
      ∃ line, log (snd (run_agent E request st)) = (log st ++ [line])%list
  | _, _ => log (snd (run_agent E request st)) = log st
  end.
Proof.
  unfold run_agent. cbv zeta.
  destruct (AGENT_REGISTRY !! AgentRequest.agent_name request)
    as [agent_url|]; [|done].
  assert (Hlog : log (snd (run_agent_try E request agent_url st)) = log st).
  { unfold run_agent_try, bind. rewrite create_session_eq. cbv zeta.
    destruct (upstream E (calls st) _) as [r|msg|msg]; try done.
    destruct (is_success (Response.status_code r)); [|done].
    rewrite run_agent_session_eq. cbv zeta. simpl.
    destruct (upstream E (calls st ++ _) _) as [r2|msg|msg]; try done.
    destruct (is_success (Response.status_code r2)); [|done].
    destruct (Response.json r2) as [msg|v]; [done|].
    destruct (py_iter v) as [events|e']; [|done].
    destruct (extractFinal events) as [final|e']; [|done].
    unfold lift. by destruct (new_AgentResponse _ _ _ _ _). }
  destruct (run_agent_try E request agent_url st) as [[r|e] st'];
    simpl in *; [done|].
  rewrite <- Hlog. destruct e; simpl; by eexists.
Qed.

Lemma append_inj_l (s a b : string) : s ++ a = s ++ b → a = b.
Proof. induction s as [|c s IH]; simpl; [done|]. intros [= H]. auto. Qed.

Lemma str_int_inj (a b : Z) : str_int a = str_int b → a = b.
Proof.
  unfold str_int. intros Heq.
  assert (Hparse : ∀ z, NilZero.int_of_string (NilZero.string_of_int (Z.to_int z))
                        = Some (Z.to_int z)).
  { intros z. apply NilZero.isi; destruct z; simpl; try done;
      intros [= H]; by apply DecimalPos.Unsigned.to_uint_nonnil in H. }
  apply DecimalZ.to_int_inj.
  assert (Hsome : Some (Z.to_int a) = Some (Z.to_int b)).
  { by rewrite <- !Hparse, Heq. }
  by injection Hsome.
Qed.

(** X17. Session identifiers collide exactly when the clock readings fall
    in the same whole second: two generated identifiers, and the session
    URLs that two create-session calls for the same target, user and
    agent address, are equal if and only if the truncated readings are. *)
Theorem session_id_collision (E1 E2 : env) (agent_url user_id app_name : string) :
  (new_session_id E1 = new_session_id E2
   ↔ py_int (clock E1) = py_int (clock E2))
  ∧ (url (create_session_call agent_url user_id app_name (new_session_id E1))
     = url (create_session_call agent_url user_id app_name (new_session_id E2))
     ↔ py_int (clock E1) = py_int (clock E2)).
Proof.
  assert (Hid : new_session_id E1 = new_session_id E2
                ↔ py_int (clock E1) = py_int (clock E2)).
  { unfold new_session_id. split; [|by intros ->].
    intros H%append_inj_l. by apply str_int_inj. }
  split; [done|]. rewrite <- Hid. simpl. split; [|by intros ->].
  intros H. by do 6 apply append_inj_l in H.
Qed.

(** X18. The identifier names the whole second the clock is in: for a
    reading in [n, n+1) with n not negative it is "session-" followed by
    the decimal digits of n. *)
Theorem session_id_of_second (E : env) (n : Z) :
  0 <= n →
  (inject_Z n <= clock E)%Q →
  (clock E < inject_Z n + 1)%Q →
  new_session_id E = "session-" ++ str_int n.
Proof.
  intros Hn Hle Hlt. unfold new_session_id, py_int. do 2 f_equal.
  destruct (clock E) as [num den]. unfold Qle, Qlt in *. simpl in *.
  rewrite Z.quot_div_nonneg by lia.
  symmetry. apply Z.div_unique with (r := num - n * Z.pos den); lia.
Qed.

Lemma session_id_of_second_witness :
  new_session_id (world (17000000009 # 10)%Q []) = "session-" ++ str_int 1700000000.
Proof.
  apply session_id_of_second.
  - lia.
  - unfold Qle. simpl. lia.
  - unfold Qlt. simpl. lia.
Defined.

Lemma registry_keys (name : string) :
  name ∈ AGENT_REGISTRY_keys ↔ is_Some (AGENT_REGISTRY !! name).
Proof.
  unfold AGENT_REGISTRY_keys. split.
  - rewrite !elem_of_cons, elem_of_nil.
    intros [->|[->|[->|[]]]]; exists "http://localhost:8000"; reflexivity.
  - intros [agent_url Hhit]. unfold AGENT_REGISTRY in Hhit. simpl in Hhit.
    rewrite !lookup_insert, lookup_empty in Hhit.
    repeat case_decide; subst; try done; set_solver.
Qed.

(** X19. The two utility endpoints list the same names, without
    repetition, and these are exactly the names [run_agent] serves: a
    request for a listed name reaches the create-session call, a request
    for any other name is refused with status 404 before any call. *)
Theorem listed_agents_served
    (E : env) (request : AgentRequest.t) (st : state) :
  agents_listed health_check = agents_listed list_agents
  ∧ NoDup (agents_listed list_agents)
  ∧ if bool_decide (AgentRequest.agent_name request
                    ∈ agents_listed list_agents)
    then ∃ agent_url later,
           calls (snd (run_agent E request st))
           = (calls st ++ create_of E request agent_url :: later)%list
    else run_agent E request st
         = (Fail {| status_code := 404;
                    detail := "Agent '" ++ AgentRequest.agent_name request
                              ++ "' not found" |}, st).
Proof.
  split; [by vm_compute|]. split.
  { change (agents_listed list_agents) with AGENT_REGISTRY_keys.
    unfold AGENT_REGISTRY_keys.
    repeat (apply NoDup_cons; split;
            [rewrite ?elem_of_cons, elem_of_nil; intuition discriminate |]).
    apply NoDup_nil_2. }
  change (agents_listed list_agents) with AGENT_REGISTRY_keys.
  unfold run_agent. cbv zeta.
  case_bool_decide as Hin; rewrite registry_keys in Hin.
  - destruct Hin as [agent_url Hhit]. rewrite Hhit.
    destruct (run_agent_try_calls E request agent_url st) as [later Hcalls].
    exists agent_url, later.
    destruct (run_agent_try E request agent_url st) as [[r|e] st'];
      simpl in *; [done|]. by rewrite handle_calls.
  - destruct (AGENT_REGISTRY !! AgentRequest.agent_name request); [|done].
    by destruct Hin.
Qed.

Lemma run_agent_succeeds_witness :
  run_agent world_ok calc_request initial =
    (Return (AgentResponse.mk "B" (new_session_id world_ok) "calc_agent"
               "success"),
     issued (run_of world_ok calc_request "http://localhost:8000")
       (issued (create_of world_ok calc_request "http://localhost:8000")
          initial)).
Proof.
  apply (run_agent_succeeds world_ok calc_request initial
           "http://localhost:8000" (Response.mk 200 "{}" (inr JNull))
           (Response.mk 200 "[...]" (inr (JArray turn_AB))) turn_AB "B");
    vm_compute; reflexivity.
Defined.

(** X21. A transport failure other than a status error (connection
    refused, broken read, ...) fails the request with status 500 and the
    exception's message; when it hits the create-session call the run
    call is never issued. *)
Theorem run_agent_transport_failure
    (E : env) (request : AgentRequest.t) (st : state)
    (agent_url msg : string) :
  AGENT_REGISTRY !! AgentRequest.agent_name request = Some agent_url →
  upstream E (calls st) (create_of E request agent_url) = Failed msg →
  fst (run_agent E request st) = Fail {| status_code := 500; detail := msg |}
  ∧ calls (snd (run_agent E request st))
    = (calls st ++ [create_of E request agent_url])%list.
Proof.
  intros Hhit Hfailed. unfold create_of in *.
  unfold run_agent, run_agent_try, bind. cbv zeta.
  rewrite Hhit, create_session_eq. cbv zeta. by rewrite Hfailed.
Qed.

Lemma run_agent_transport_failure_witness :
  fst (run_agent (world (17000000005 # 10)%Q [Failed "All connection attempts failed"])
         calc_request initial)
  = Fail {| status_code := 500; detail := "All connection attempts failed" |}.
Proof.
  apply (run_agent_transport_failure
           (world (17000000005 # 10)%Q [Failed "All connection attempts failed"])
           calc_request initial "http://localhost:8000").
  - vm_compute. reflexivity.
  - vm_compute. reflexivity.
Defined.

(** X22. [create_session] always issues exactly one call, with an empty
    JSON object as payload, and logs nothing; it returns an identifier
    only when the target answered that call with a success status. *)
Theorem create_session_one_call
    (E : env) (agent_url user_id app_name : string) (st : state) :
  let c := create_session_call agent_url user_id app_name (new_session_id E) in
  snd (create_session E agent_url user_id app_name st) = issued c st
  ∧ body c = JObject ∅
  ∧ match fst (create_session E agent_url user_id app_name st) with
    | Ok sid =>
        sid = new_session_id E
        ∧ ∃ r, upstream E (calls st) c = Responded r
               ∧ is_success (Response.status_code r) = true
    | Raise _ =>
        ∀ r, upstream E (calls st) c = Responded r →
             is_success (Response.status_code r) = false
    end.
Proof.
  intros c. rewrite create_session_eq. cbv zeta. fold c.
  destruct (upstream E (calls st) c) as [r|msg|msg] eqn:Hreply; try done.
  destruct (is_success (Response.status_code r)) eqn:Hr; simpl.
  - repeat split; eauto.
  - repeat split. by intros r' [= <-].
Qed.

(** X23. The message survives the trip unchanged: when the target answers
    the run call with the single event that repeats the message object it
    was sent, under the model role, the answer of the gateway is the
    caller's message, character for character. *)
Theorem run_agent_echo
    (E : env) (request : AgentRequest.t) (st : state)
    (agent_url : string) (run_response : Response.t) (new_message : json) :
  run_answered E request st agent_url run_response →
  is_success (Response.status_code run_response) = true →
  new_message_of (run_of E request agent_url) = Some new_message →
  Response.json run_response
  = inr (JArray [event_of (as_model new_message)]) →
  fst (run_agent E request st) =
    Return (AgentResponse.mk (AgentRequest.message request) (new_session_id E)
              (AgentRequest.agent_name request) "success").
Proof.
  intros Hanswered Hstatus Hnew Hjson.
  rewrite (run_agent_answered _ _ _ _ _ Hanswered).
  rewrite (run_agent_try_answered _ _ _ _ _ Hanswered). cbv zeta.
  rewrite Hstatus, Hjson.
  vm_compute in Hnew. injection Hnew as <-.
  unfold py_iter, extractFinal, scan.
  rewrite scan_event_no_fault by (vm_compute; reflexivity).
  vm_compute. reflexivity.
Qed.

Lemma run_agent_echo_witness :
  fst (run_agent
         (world (17000000005 # 10)%Q
            [ answer 200 "{}" JNull;
              answer 200 "[...]"
                (JArray [event_of (content_of "model" [text_part "hi"])]) ])
         calc_request initial)
  = Return (AgentResponse.mk "hi" "session-1700000000" "calc_agent" "success").
Proof.
  apply (run_agent_echo
           (world (17000000005 # 10)%Q
              [ answer 200 "{}" JNull;
                answer 200 "[...]"
                  (JArray [event_of (content_of "model" [text_part "hi"])]) ])
           calc_request initial "http://localhost:8000"
           (Response.mk 200 "[...]"
              (inr (JArray [event_of (content_of "model" [text_part "hi"])])))
           (content_of "user" [text_part "hi"])).
  - answered.
  - vm_compute. reflexivity.
  - vm_compute. reflexivity.
  - vm_compute. reflexivity.
Defined.

Lemma extractFinal_origin_witness :
  JString "B" = JString sentinel
  ∨ Exists (λ ev, eligible_text ev = Some (JString "B")) turn_AB.
Proof.
  apply (extractFinal_origin turn_AB (JString "B")).
  vm_compute. reflexivity.
Defined.





(** X25. The user and agent names enter the session URL as they are,
    without escaping: a slash inside a name moves the boundary between
    the path segments, so that different (agent, user) pairs can address
    one and the same URL. *)
Theorem create_session_url_unescaped
    (agent_url app_name middle user_id session_id : string) :
  url (create_session_call agent_url user_id
         (app_name ++ "/users/" ++ middle) session_id)
  = url (create_session_call agent_url
           (middle ++ "/users/" ++ user_id) app_name session_id).
Proof.
  unfold create_session_call. cbn [url].
  assert (Hassoc : ∀ a b c : string, (a ++ b) ++ c = a ++ b ++ c).
  { intros a b c. induction a as [|x a IH]; [done|].
    change (String x ((a ++ b) ++ c) = String x (a ++ b ++ c)).
    by rewrite IH. }
  by rewrite !Hassoc.
Qed.
